(** * llama_recipes.utils.config_utils

    A shallow embedding of [src/llama_recipes/utils/config_utils.py]:
    [update_config], [generate_peft_config], [generate_dataset_config],
    [get_distillation_configs] and [get_dataloader_kwargs], together with
    the properties of these functions.

    Python objects live in a heap and are mutated in place; [print] and the
    calls to external constructors are recorded in a trace; an exception
    ends the computation and leaves the state as it was when it was raised. *)

From Stdlib Require Import ZArith Ascii String.
From stdpp Require Import base option list strings gmap functions.

Local Open Scope string_scope.
Local Set Warnings "-register-all".

(** ** Strings: the fragments of [str] the module uses *)

Definition dot : ascii := "."%char.

(** [ch in s] for a one-character needle. *)
Fixpoint char_in (ch : ascii) (s : string) : bool :=
  match s with
  | EmptyString => false
  | String c s' => if Ascii.eqb c ch then true else char_in ch s'
  end.

(** [s.split(sep)] for a one-character separator: one more part than there
    are separators, empty parts kept. *)
Fixpoint split (sep : ascii) (s : string) : list string :=
  match s with
  | EmptyString => [EmptyString]
  | String c s' =>
      if Ascii.eqb c sep then EmptyString :: split sep s'
      else match split sep s' with
           | [] => [String c EmptyString]
           | p :: ps => String c p :: ps
           end
  end.

(** [s.rstrip(chars)]: drops the longest suffix made of characters of
    [chars] (a character set, not a suffix). *)
Fixpoint rstrip (chars : string) (s : string) : string :=
  match s with
  | EmptyString => EmptyString
  | String c s' =>
      match rstrip chars s' with
      | EmptyString => if char_in c chars then EmptyString else String c EmptyString
      | r => String c r
      end
  end.

(** [x in names] and [names.index(x)] on a tuple of strings. *)
Fixpoint str_in (x : string) (names : list string) : bool :=
  match names with
  | [] => false
  | n :: ns => if String.eqb n x then true else str_in x ns
  end.

Fixpoint index (names : list string) (x : string) : option nat :=
  match names with
  | [] => None
  | n :: ns => if String.eqb n x then Some 0 else S <$> index ns x
  end.

(** Substring test, used to read error messages. *)
Fixpoint is_prefix (p s : string) : bool :=
  match p, s with
  | EmptyString, _ => true
  | String a p', String b s' => Ascii.eqb a b && is_prefix p' s'
  | String _ _, EmptyString => false
  end.

Fixpoint is_substring (p s : string) : bool :=
  is_prefix p s ||
  match s with
  | EmptyString => false
  | String _ s' => is_substring p s'
  end.

(** Number of ['.'] in a key. *)
Fixpoint count_dots (s : string) : nat :=
  match s with
  | EmptyString => 0
  | String c s' => (if Ascii.eqb c dot then 1 else 0) + count_dots s'
  end.

(** ** Exceptions, traces and the state-and-exception monad *)

Inductive exn :=
| ValueError (msg : string)
| RuntimeError (msg : string)
| IndexError (msg : string).

Inductive outcome (A : Type) :=
| Returned (a : A)
| Raised (e : exn).
Arguments Returned {A} a.
Arguments Raised {A} e.

(** What a caller can observe besides the result: lines printed, and calls
    made to collaborators outside the module. *)
Inductive event :=
| Print (line : string)
| Call (callee : string).

Definition Py (S A : Type) : Type := S → S * outcome A.

Definition raise {S A} (e : exn) : Py S A := λ s, (s, Raised e).

Global Instance py_ret {S} : MRet (Py S) := λ A a s, (s, Returned a).
Global Instance py_bind {S} : MBind (Py S) := λ A B k m s,
  match m s with
  | (s', Returned a) => k a s'
  | (s', Raised e) => (s', Raised e)
  end.

(** ** Configuration objects *)

Definition loc := nat.

Section Config.
Context {V : Type}.

(** An instance of a configuration dataclass: its class (the name
    [type(config).__name__] and whether the class is [train_config] or
    one of its subclasses) and its attributes. [hasattr] is attribute
    lookup and [setattr] never fails: the configuration classes are
    ordinary, non-frozen dataclasses. *)
Record config_obj := ConfigObj {
  type_name : string;
  is_train_config : bool;
  attrs : gmap string V
}.

Definition hasattr (config : config_obj) (k : string) : bool :=
  bool_decide (is_Some (attrs config !! k)).

Definition setattr (config : config_obj) (k : string) (v : V) : config_obj :=
  {| type_name := type_name config;
     is_train_config := is_train_config config;
     attrs := <[k := v]> (attrs config) |}.

(** The state one object's update runs in: the object and the trace. *)
Definition obj_state : Type := config_obj * list event.

Definition do_setattr (k : string) (v : V) : Py obj_state unit :=
  λ '(config, tr), ((setattr config k v, tr), Returned tt).

Definition do_print (line : string) : Py obj_state unit :=
  λ '(config, tr), ((config, (tr ++ [Print line])%list), Returned tt).

(** The body of the loop [for k, v in kwargs.items()] of [update_config],
    lines 45-57. The tuple assignment of line 49 raises [ValueError]
    unless [k.split(".")] has exactly two parts. *)
Definition update_item (k : string) (v : V) : Py obj_state unit :=
  λ '(config, tr),
    (if hasattr config k then do_setattr k v
     else if char_in dot k then
       match split dot k with
       | [config_name; param_name] =>
           if String.eqb (type_name config) config_name then
             if hasattr config param_name then do_setattr param_name v
             else do_print ("Warning: " +:+ config_name +:+
                            " does not accept parameter: " +:+ k)
           else mret tt
       | [] | [_] => raise (ValueError "not enough values to unpack (expected 2, got 1)")
       | _ => raise (ValueError "too many values to unpack (expected 2)")
       end
     else if is_train_config config then
       do_print ("Warning: unknown parameter " +:+ k)
     else mret tt) (config, tr).

(** The loop itself, over the items of [kwargs] in insertion order. *)
Fixpoint update_items (kwargs : list (string * V)) : Py obj_state unit :=
  match kwargs with
  | [] => mret tt
  | (k, v) :: rest => update_item k v;; update_items rest
  end.

(** The heap of configuration objects and the trace. *)
Record world := World {
  heap : loc → config_obj;
  trace : list event
}.

(** Runs an update of the object at [l] in place. *)
Definition at_loc {A} (l : loc) (m : Py obj_state A) : Py world A :=
  λ w, match m (heap w l, trace w) with
       | ((config', tr'), r) => ({| heap := <[l := config']> (heap w); trace := tr' |}, r)
       end.

(** The argument [config] of [update_config]: one object, or a tuple or
    list of such arguments. *)
Inductive config :=
| Obj (l : loc)
| Seq (cs : list config).

(** [update_config(config, **kwargs)], lines 39-57. *)
Fixpoint update_config (c : config) (kwargs : list (string * V)) : Py world unit :=
  match c with
  | Seq cs =>
      (fix each (cs : list config) : Py world unit :=
         match cs with
         | [] => mret tt
         | c' :: cs' => update_config c' kwargs;; each cs'
         end) cs
  | Obj l => at_loc l (update_items kwargs)
  end.

(** Field and type names of a configuration dataclass are identifiers:
    no ['.'] occurs in them. *)
Definition well_formed (config : config_obj) : Prop :=
  char_in dot (type_name config) = false ∧
  map_Forall (λ k _, char_in dot k = false) (attrs config).

(** What one undotted override does to one object. *)
Definition set_if_present (k : string) (v : V) (config : config_obj) : config_obj :=
  if hasattr config k then setattr config k v else config.

End Config.
Arguments config_obj : clear implicits.
Arguments world : clear implicits.
Arguments obj_state : clear implicits.


(** ** The training configuration

    The fields of [train_config] the module reads, and the remaining
    hyperparameters. *)
Record train_config {V : Type} := TrainConfig {
  peft_method : string;
  enable_fsdp : bool;
  enable_ddp : bool;
  batching_strategy : string;
  batch_size_training : Z;
  val_batch_size : Z;
  other_fields : gmap string V
}.
Arguments train_config : clear implicits.

(** [t.index(x)] and [t[i]] on tuples. *)
Definition tuple_index {S} (names : list string) (x : string) : Py S nat :=
  match index names x with
  | Some i => mret i
  | None => raise (ValueError "tuple.index(x): x not in tuple")
  end.

Definition tuple_get {S A} (t : list A) (i : nat) : Py S A :=
  match t !! i with
  | Some a => mret a
  | None => raise (IndexError "tuple index out of range")
  end.

(** ** generate_peft_config *)

Section Peft.
Context {V Params Adapter : Type}.

(** The collaborators: the default field values of each configuration
    dataclass of [llama_recipes.configs], [dataclasses.asdict], and the
    adapter configuration classes of [peft], which may reject their
    arguments. *)
Variable default_attrs : string → gmap string V.
Variable asdict : config_obj V → Params.
Variable peft_class : string → Params → outcome Adapter.

(** The three tuples of lines 61-63. A class is given by its [__name__]:
    the classes of [llama_recipes.configs] and of [peft] are named as line
    20 and lines 12-16 import them. *)
Definition configs : list string :=
  ["lora_config"; "llama_adapter_config"; "prefix_config"].
Definition peft_configs : list string :=
  ["LoraConfig"; "AdaptionPromptConfig"; "PrefixTuningConfig"].
Definition names : list string := rstrip "_config" <$> configs.

(** [cls()] for a configuration dataclass. *)
Definition instantiate (cls : string) : Py (list event) (config_obj V) :=
  λ tr, ((tr ++ [Call cls])%list,
         Returned {| type_name := cls; is_train_config := false;
                     attrs := default_attrs cls |}).

(** The call of an adapter configuration class on the unpacked [params]. *)
Definition construct (cls : string) (params : Params) : Py (list event) Adapter :=
  λ tr, ((tr ++ [Call cls])%list, peft_class cls params).

(** [update_config(config, **kwargs)] on the local object [config]. *)
Definition update_local (config : config_obj V) (kwargs : list (string * V))
  : Py (list event) (config_obj V) :=
  λ tr, match update_items kwargs (config, tr) with
        | ((config', tr'), Returned _) => (tr', Returned config')
        | ((_, tr'), Raised e) => (tr', Raised e)
        end.

Definition prefix_msg : string :=
  "PrefixTuning is currently not supported (see https://github.com/meta-llama/llama-recipes/issues/359#issuecomment-2089350811)".
Definition llama_adapter_msg : string :=
  "Llama_adapter is currently not supported in combination with FSDP (see https://github.com/meta-llama/llama-recipes/issues/359#issuecomment-2089274425)".

(** [generate_peft_config(train_config, kwargs)], lines 60-80. *)
Definition generate_peft_config (train_config : train_config V)
    (kwargs : list (string * V)) : Py (list event) Adapter :=
  if negb (str_in (peft_method train_config) names) then
    raise (RuntimeError ("Peft config not found: " +:+ peft_method train_config))
  else if String.eqb (peft_method train_config) "prefix" then
    raise (RuntimeError prefix_msg)
  else if enable_fsdp train_config
          && String.eqb (peft_method train_config) "llama_adapter" then
    raise (RuntimeError llama_adapter_msg)
  else
    i ← tuple_index names (peft_method train_config);
    cls ← tuple_get configs i;
    config ← instantiate cls;
    config ← update_local config kwargs;
    let params := asdict config in
    j ← tuple_index names (peft_method train_config);
    ctor ← tuple_get peft_configs j;
    construct ctor params.

End Peft.

(** ** get_dataloader_kwargs *)

Section Loader.
Context {V Dataset Tokenizer : Type}.

(** The samplers and collators, as the constructor calls that make
    them: each records the arguments the module passes. *)
Inductive sampler :=
| DistributedLengthBasedBatchSampler
    (dataset : Dataset) (batch_size rank num_replicas : Z) (shuffle : bool)
| LengthBasedBatchSampler
    (dataset : Dataset) (batch_size : Z) (drop_last shuffle : bool)
| DistributedSampler
    (dataset : Dataset) (rank num_replicas : Z) (shuffle drop_last : bool).

Inductive collator :=
| DataCollatorForSeq2Seq (tokenizer : Tokenizer)
| default_data_collator.

(** The values of the returned dict. *)
Inductive kwarg :=
| KSampler (s : sampler)
| KInt (n : Z)
| KBool (b : bool)
| KCollate (c : collator).

(** [torch.distributed]: what the two queries answer in this process;
    they raise when no process group is initialised. *)
Record dist_env := DistEnv {
  get_rank : outcome Z;
  get_world_size : outcome Z
}.

Definition query (name : string) (r : outcome Z) : Py (list event) Z :=
  λ tr, ((tr ++ [Call name])%list, r).

Definition new {A} (cls : string) (a : A) : Py (list event) A :=
  λ tr, ((tr ++ [Call cls])%list, Returned a).

(** [get_dataloader_kwargs(train_config, dataset, tokenizer, mode)],
    lines 117-155. *)
Definition get_dataloader_kwargs (dist : dist_env)
    (train_config : train_config V) (dataset : Dataset)
    (tokenizer : Tokenizer) (mode : string)
  : Py (list event) (gmap string kwarg) :=
  let kwargs : gmap string kwarg := ∅ in
  let batch_size :=
    if String.eqb mode "train" then batch_size_training train_config
    else val_batch_size train_config in
  if String.eqb (batching_strategy train_config) "padding" then
    kwargs ←
      (if enable_fsdp train_config then
         rank ← query "dist.get_rank" (get_rank dist);
         num_replicas ← query "dist.get_world_size" (get_world_size dist);
         s ← new "DistributedLengthBasedBatchSampler"
               (DistributedLengthBasedBatchSampler dataset batch_size rank
                  num_replicas (String.eqb mode "train"));
         mret (<["batch_sampler" := KSampler s]> kwargs)
       else
         s ← new "LengthBasedBatchSampler"
               (LengthBasedBatchSampler dataset batch_size true
                  (String.eqb mode "train"));
         mret (<["batch_sampler" := KSampler s]> kwargs));
    c ← new "DataCollatorForSeq2Seq" (DataCollatorForSeq2Seq tokenizer);
    mret (<["collate_fn" := KCollate c]> kwargs)
  else if String.eqb (batching_strategy train_config) "packing" then
    kwargs ←
      (if enable_fsdp train_config then
         rank ← query "dist.get_rank" (get_rank dist);
         num_replicas ← query "dist.get_world_size" (get_world_size dist);
         s ← new "DistributedSampler"
               (DistributedSampler dataset rank num_replicas
                  (String.eqb mode "train") true);
         mret (<["sampler" := KSampler s]> kwargs)
       else if enable_ddp train_config then
         rank ← query "dist.get_rank" (get_rank dist);
         num_replicas ← query "dist.get_world_size" (get_world_size dist);
         s ← new "DistributedSampler"
               (DistributedSampler dataset rank num_replicas
                  (String.eqb mode "train") true);
         mret (<["sampler" := KSampler s]> kwargs)
       else mret kwargs);
    let kwargs := <["batch_size" := KInt batch_size]> kwargs in
    let kwargs := <["drop_last" := KBool true]> kwargs in
    let kwargs := <["collate_fn" := KCollate default_data_collator]> kwargs in
    mret kwargs
  else
    raise (ValueError ("Unknown batching strategy: "
                       +:+ batching_strategy train_config)).

End Loader.
Arguments sampler : clear implicits.
Arguments collator : clear implicits.
Arguments kwarg : clear implicits.

(** ** Concrete configurations *)

Module Inputs.

Definition training : config_obj Z :=
  {| type_name := "train_config"; is_train_config := true;
     attrs := {["batch_size_training" := 8%Z]} |}.

Definition lora : config_obj Z :=
  {| type_name := "lora_config"; is_train_config := false;
     attrs := {["r" := 8%Z]} |}.

(** Location 0 holds a training configuration, every other location a
    lora configuration. *)
Definition heap0 : loc → config_obj Z :=
  λ l, match l with 0 => training | _ => lora end.

Definition world0 : world Z := {| heap := heap0; trace := [] |}.

(** A training configuration with batch sizes 8 and 4. *)
Definition mk_tc (peft strategy : string) (fsdp ddp : bool) : train_config Z :=
  {| peft_method := peft; enable_fsdp := fsdp; enable_ddp := ddp;
     batching_strategy := strategy; batch_size_training := 8;
     val_batch_size := 4; other_fields := ∅ |}.

(** Collaborators of [generate_peft_config]: every configuration class has
    the one field [adapter_len], and every adapter class accepts its
    arguments and keeps them. *)
Definition defaults : string → gmap string Z := λ _, {["adapter_len" := 10%Z]}.
Definition fields_of : config_obj Z → gmap string Z := attrs.
Definition accept : string → gmap string Z → outcome (string * gmap string Z) :=
  λ cls params, Returned (cls, params).

(** A process group of two processes, seen from rank 1. *)
Definition dist0 : dist_env := {| get_rank := Returned 1%Z; get_world_size := Returned 2%Z |}.

End Inputs.

(** ** What update_config leaves alone *)

(** The objects an argument of [update_config] refers to. *)
Fixpoint locs (c : config) : list loc :=
  match c with
  | Obj l => [l]
  | Seq cs =>
      (fix each (cs : list config) : list loc :=
         match cs with
         | [] => []
         | c' :: cs' => (locs c' ++ each cs')%list
         end) cs
  end.

(** Two objects of the same class with the same attribute names. *)
Definition same_shape {V} (o1 o2 : config_obj V) : Prop :=
  type_name o1 = type_name o2 ∧
  is_train_config o1 = is_train_config o2 ∧
  dom (attrs o1) = dom (attrs o2).

Definition is_print (e : event) : bool :=
  match e with
  | Print _ => true
  | Call _ => false
  end.

(** The cases in which [generate_peft_config] gets past its three checks,
    with the configuration class and the adapter class it then uses. *)
Definition selects {V} (tc : train_config V) (cls ctor : string) : Prop :=
  (peft_method tc = "lora" ∧ cls = "lora_config" ∧ ctor = "LoraConfig") ∨
  (peft_method tc = "llama_adapter" ∧ enable_fsdp tc = false ∧
   cls = "llama_adapter_config" ∧ ctor = "AdaptionPromptConfig").

(** The instance [cls()] returns. *)
Definition fresh {V} (default_attrs : string → gmap string V) (cls : string)
  : config_obj V :=
  {| type_name := cls; is_train_config := false; attrs := default_attrs cls |}.

(** ** generate_dataset_config *)

Section Dataset.
Context {V E : Type}.

(** The collaborators: the keys of [DATASET_PREPROC], in order, and the
    dict that line 88 builds from [inspect.getmembers(datasets)], each
    member given by what calling it without arguments does: it raises, or
    it returns an object. *)
Variable DATASET_PREPROC : list string.
Variable members : gmap string (E + config_obj V).

(** How the function can fail: the assertion of line 86, the dict lookup
    and the call of line 88, and [update_config] at line 90. *)
Inductive dataset_exn :=
| AssertionError (msg : string)
| KeyError (key : string)
| CallRaised (e : E)
| UpdateRaised (e : exn).

(** [generate_dataset_config(train_config, kwargs)], lines 83-92.
    [dataset] is [train_config.dataset], the one field the function
    reads. *)
Definition generate_dataset_config (dataset : string)
    (kwargs : list (string * V)) (tr : list event)
  : list event * (dataset_exn + config_obj V) :=
  let names := DATASET_PREPROC in
  if negb (str_in dataset names) then
    (tr, inl (AssertionError ("Unknown dataset: " +:+ dataset)))
  else
    let tr := (tr ++ [Call "inspect.getmembers"])%list in
    match members !! dataset with
    | None => (tr, inl (KeyError dataset))
    | Some (inl e) => ((tr ++ [Call dataset])%list, inl (CallRaised e))
    | Some (inr dataset_config) =>
        match update_items kwargs (dataset_config, (tr ++ [Call dataset])%list) with
        | ((dataset_config', tr'), Returned _) => (tr', inr dataset_config')
        | ((_, tr'), Raised e) => (tr', inl (UpdateRaised e))
        end
    end.

End Dataset.
Arguments dataset_exn : clear implicits.
Arguments AssertionError {E} msg.
Arguments KeyError {E} key.
Arguments CallRaised {E} e.
Arguments UpdateRaised {E} e.

(** ** get_distillation_configs *)

Section Distillation.
Context {V : Type}.

(** The default values of the three named parameters (line 97-99), and
    [MODEL_CONFIG.__dict__]. *)
Variable default_teacher_model_name default_alpha default_temperature : V.
Variable MODEL_CONFIG_dict : gmap string V.

(** The components of the returned tuple: a dict, the class
    [train_config] itself, or [None]. *)
Inductive distillation_item :=
| ModelConfigs (d : gmap string V)
| TrainConfigClass
| PyNone.

(** [get_distillation_configs(teacher_model_name, alpha, temperature,
    **kwargs)], lines 95-114. A parameter that the caller leaves out is
    [None] here and takes its default. The state is the attributes of the
    class [train_config], which lines 106-108 assign. *)
Definition get_distillation_configs
    (teacher_model_name alpha temperature : option V)
    (kwargs : list (string * V)) (TRAIN_CONFIG : gmap string V)
  : gmap string V * list distillation_item :=
  let teacher_model_name := default default_teacher_model_name teacher_model_name in
  let alpha := default default_alpha alpha in
  let temperature := default default_temperature temperature in
  let TRAIN_CONFIG := <["teacher_model_name" := teacher_model_name]> TRAIN_CONFIG in
  let TRAIN_CONFIG := <["alpha" := alpha]> TRAIN_CONFIG in
  let TRAIN_CONFIG := <["temperature" := temperature]> TRAIN_CONFIG in
  let model_configs := MODEL_CONFIG_dict in
  (TRAIN_CONFIG, [ModelConfigs model_configs; TrainConfigClass; PyNone; PyNone; PyNone]).

End Distillation.
Arguments distillation_item : clear implicits.

(** ** More concrete inputs *)

Module MoreInputs.

(** A dataset configuration, and a module with that one dataclass and a
    member that cannot be called. *)
Definition samsum : config_obj Z :=
  {| type_name := "samsum_dataset"; is_train_config := false;
     attrs := {["train_split" := 1%Z]} |}.

Definition preproc : list string := ["samsum_dataset"; "custom_dataset"].

Definition module_members : gmap string (string + config_obj Z) :=
  <["samsum_dataset" := inr samsum]> {["__name__" := inl "TypeError"]}.

(** A process in which no process group is initialised. *)
Definition no_dist : dist_env :=
  {| get_rank := Raised (ValueError "Default process group has not been initialized");
     get_world_size := Raised (ValueError "Default process group has not been initialized") |}.

End MoreInputs.

(** ** Sanity checks on concrete inputs *)

Example split_one : split dot "lora_config.r" = ["lora_config"; "r"].
Proof. reflexivity. Qed.

Example split_two : split dot "a.b.c" = ["a"; "b"; "c"].
Proof. reflexivity. Qed.

Example rstrip_lora : rstrip "_config" "lora_config" = "lora".
Proof. reflexivity. Qed.

(** ** Keys and their dots *)

Lemma char_in_count_dots s : char_in dot s = false ↔ count_dots s = 0.
Proof.
  induction s as [|c s IH]; simpl; [done|].
  destruct (Ascii.eqb c dot); simpl; [split; discriminate | exact IH].
Qed.

Lemma split_length s : length (split dot s) = S (count_dots s).
Proof.
  induction s as [|c s IH]; simpl; [done|].
  destruct (Ascii.eqb c dot); simpl; [by rewrite IH|].
  destruct (split dot s); simpl in *; [discriminate | done].
Qed.

Lemma split_no_dot s : char_in dot s = false → split dot s = [s].
Proof.
  induction s as [|c s IH]; simpl; [done|].
  destruct (Ascii.eqb c dot); [discriminate|].
  intros H. by rewrite (IH H).
Qed.

Lemma split_dotted a b :
  char_in dot a = false → char_in dot b = false →
  split dot (a +:+ String dot b) = [a; b].
Proof.
  intros Ha Hb. induction a as [|c a IH]; simpl in *.
  - by rewrite (split_no_dot b Hb).
  - destruct (Ascii.eqb c dot); [discriminate|]. by rewrite (IH Ha).
Qed.

Lemma char_in_dotted a b : char_in dot (a +:+ String dot b) = true.
Proof.
  induction a as [|c a IH]; simpl; [done|].
  by destruct (Ascii.eqb c dot).
Qed.

Lemma count_dots_dotted a b :
  count_dots (a +:+ String dot b) = S (count_dots a + count_dots b).
Proof.
  induction a as [|c a IH]; simpl; [done|].
  rewrite IH. destruct (Ascii.eqb c dot); simpl; lia.
Qed.

(** ** One object, one override *)

Section UpdateItem.
Context {V : Type}.
Implicit Types (config : config_obj V) (k : string) (v : V) (tr : list event).

Lemma hasattr_true config k : hasattr config k = true ↔ is_Some (attrs config !! k).
Proof. unfold hasattr. by rewrite bool_decide_eq_true. Qed.

Lemma hasattr_false config k : hasattr config k = false ↔ attrs config !! k = None.
Proof.
  unfold hasattr. rewrite bool_decide_eq_false. by rewrite eq_None_not_Some.
Qed.

Lemma well_formed_no_dotted config k :
  well_formed config → char_in dot k = true → attrs config !! k = None.
Proof.
  intros [_ Hwf] Hk. destruct (attrs config !! k) as [x|] eqn:E; [|done].
  specialize (Hwf k x E). simpl in Hwf. congruence.
Qed.

Lemma well_formed_field config k :
  well_formed config → is_Some (attrs config !! k) → char_in dot k = false.
Proof. intros [_ Hwf] [x E]. exact (Hwf k x E). Qed.

Lemma well_formed_setattr config k v :
  well_formed config → char_in dot k = false → well_formed (setattr config k v).
Proof.
  intros [Hn Hwf] Hk. split; [done|]. simpl. by apply map_Forall_insert_2.
Qed.

(** A key the object has: the attribute is set, nothing is printed. *)
Lemma update_item_field config k v tr :
  is_Some (attrs config !! k) →
  update_item k v (config, tr) = ((setattr config k v, tr), Returned tt).
Proof.
  intros H. apply hasattr_true in H. unfold update_item. by rewrite H.
Qed.

(** An unknown key without a dot: a warning for a training
    configuration, nothing for any other object. *)
Lemma update_item_plain config k v tr :
  attrs config !! k = None → char_in dot k = false →
  update_item k v (config, tr) =
    ((config,
      if is_train_config config
      then (tr ++ [Print ("Warning: unknown parameter " +:+ k)])%list
      else tr), Returned tt).
Proof.
  intros H Hk. apply hasattr_false in H. unfold update_item.
  rewrite H, Hk. by destruct (is_train_config config).
Qed.

(** An unknown key [name.param] with dot-free parts. *)
Lemma update_item_dotted config name param v tr :
  attrs config !! (name +:+ String dot param) = None →
  char_in dot name = false → char_in dot param = false →
  update_item (name +:+ String dot param) v (config, tr) =
    if String.eqb (type_name config) name then
      if hasattr config param then ((setattr config param v, tr), Returned tt)
      else ((config,
             (tr ++ [Print ("Warning: " +:+ name +:+ " does not accept parameter: "
                            +:+ (name +:+ String dot param))])%list),
            Returned tt)
    else ((config, tr), Returned tt).
Proof.
  intros H Hn Hp. apply hasattr_false in H. unfold update_item.
  rewrite H, char_in_dotted, (split_dotted _ _ Hn Hp).
  destruct (String.eqb (type_name config) name); [|done].
  by destruct (hasattr config param).
Qed.

(** An unknown key with two dots or more: line 49 raises. *)
Lemma update_item_many_dots config k v tr :
  attrs config !! k = None → (2 ≤ count_dots k)%nat →
  update_item k v (config, tr) =
    ((config, tr), Raised (ValueError "too many values to unpack (expected 2)")).
Proof.
  intros H Hk. apply hasattr_false in H. unfold update_item. rewrite H.
  destruct (char_in dot k) eqn:E.
  - pose proof (split_length k) as Hl.
    destruct (split dot k) as [|a [|b [|c r]]]; simpl in Hl; try lia; done.
  - apply char_in_count_dots in E. lia.
Qed.

(** With at most one dot in a key, one step of the loop never raises. *)
Lemma update_item_returns config k v tr :
  (count_dots k ≤ 1)%nat → (update_item k v (config, tr)).2 = Returned tt.
Proof.
  intros Hk. unfold update_item.
  destruct (hasattr config k); [done|].
  destruct (char_in dot k) eqn:E.
  - pose proof (split_length k) as Hl.
    assert (count_dots k ≠ 0) as Hne.
    { intros H0. apply char_in_count_dots in H0. congruence. }
    destruct (split dot k) as [|a [|b [|c r]]]; simpl in Hl; try lia.
    destruct (String.eqb (type_name config) a); [|done].
    by destruct (hasattr config b).
  - by destruct (is_train_config config).
Qed.

Lemma update_items_returns kwargs config tr :
  Forall (λ kv, (count_dots kv.1 ≤ 1)%nat) kwargs →
  (update_items kwargs (config, tr)).2 = Returned tt.
Proof.
  intros H. revert config tr.
  induction H as [|[k v] rest Hk _ IH]; intros config tr; [done|].
  simpl. unfold mbind, py_bind.
  pose proof (update_item_returns config k v tr Hk) as Hr.
  destruct (update_item k v (config, tr)) as [[config' tr'] r].
  simpl in Hr. subst r. apply IH.
Qed.

End UpdateItem.

(** ** update_config on the heap *)

Section UpdateConfig.
Context {V : Type}.
Implicit Types (w : world V) (l : loc) (k : string) (v : V).

Lemma update_config_Obj l (kwargs : list (string * V)) w :
  update_config (Obj l) kwargs w = at_loc l (update_items kwargs) w.
Proof. done. Qed.

Lemma update_config_Seq_nil (kwargs : list (string * V)) w :
  update_config (Seq []) kwargs w = (w, Returned tt).
Proof. done. Qed.

Lemma update_config_Seq_cons c cs (kwargs : list (string * V)) w :
  update_config (Seq (c :: cs)) kwargs w =
    (update_config c kwargs;; update_config (Seq cs) kwargs) w.
Proof. done. Qed.

Lemma setattr_setattr (config : config_obj V) k v :
  setattr (setattr config k v) k v = setattr config k v.
Proof. unfold setattr. simpl. by rewrite insert_insert_eq. Qed.

Lemma hasattr_setattr (config : config_obj V) k v :
  hasattr (setattr config k v) k = true.
Proof. apply hasattr_true. simpl. rewrite lookup_insert_eq. by eexists. Qed.

Lemma set_if_present_idemp k v (config : config_obj V) :
  set_if_present k v (set_if_present k v config) = set_if_present k v config.
Proof.
  unfold set_if_present. destruct (hasattr config k) eqn:E.
  - by rewrite hasattr_setattr, setattr_setattr.
  - by rewrite E.
Qed.

Lemma update_config_Obj_single l k v w :
  char_in dot k = false →
  (update_config (Obj l) [(k, v)] w).2 = Returned tt ∧
  ∀ l', heap (update_config (Obj l) [(k, v)] w).1 l' =
        if decide (l = l') then set_if_present k v (heap w l) else heap w l'.
Proof.
  intros Hk. rewrite update_config_Obj. unfold at_loc, set_if_present. simpl.
  unfold mbind, py_bind.
  destruct (hasattr (heap w l) k) eqn:E.
  - rewrite (update_item_field _ k v _ (proj1 (hasattr_true _ _) E)). simpl.
    split; [done|]. intros l'. unfold insert, fn_insert. by case_decide.
  - rewrite (update_item_plain _ k v _ (proj1 (hasattr_false _ _) E) Hk). simpl.
    split; [done|]. intros l'. unfold insert, fn_insert. by case_decide.
Qed.

(** One undotted override over a list of objects: every object of the
    list that has the field gets it set, and nothing else changes. The
    same object may occur several times in the list. *)
Lemma update_config_flat (C : list loc) k v w :
  char_in dot k = false →
  (update_config (Seq (Obj <$> C)) [(k, v)] w).2 = Returned tt ∧
  ∀ l, heap (update_config (Seq (Obj <$> C)) [(k, v)] w).1 l =
       if bool_decide (l ∈ C) then set_if_present k v (heap w l) else heap w l.
Proof.
  intros Hk. revert w. induction C as [|a C IH]; intros w.
  - split; [done|]. intros l.
    case_bool_decide as H; [by apply not_elem_of_nil in H | done].
  - rewrite fmap_cons, update_config_Seq_cons. unfold mbind, py_bind.
    destruct (update_config_Obj_single a k v w Hk) as [Hr Hh].
    destruct (update_config (Obj a) [(k, v)] w) as [w1 r1]. simpl in Hr, Hh.
    subst r1. destruct (IH w1) as [Hr2 Hh2]. split; [done|].
    intros l. rewrite Hh2, !Hh.
    destruct (decide (a = l)) as [->|Hne].
    + rewrite (bool_decide_eq_true_2 (l ∈ l :: C)) by apply list_elem_of_here.
      case_bool_decide; [apply set_if_present_idemp | done].
    + destruct (bool_decide (l ∈ C)) eqn:E.
      * apply bool_decide_eq_true in E.
        rewrite bool_decide_eq_true_2; [done|]. by apply list_elem_of_further.
      * apply bool_decide_eq_false in E.
        rewrite bool_decide_eq_false_2; [done|].
        intros [?|?]%elem_of_cons; congruence.
Qed.

(** An override with two dots or more on an object that has no such
    attribute: the call raises, whatever the object. *)
Lemma update_config_Obj_many_dots l k v (rest : list (string * V)) w :
  attrs (heap w l) !! k = None → (2 ≤ count_dots k)%nat →
  (update_config (Obj l) ((k, v) :: rest) w).2 =
    Raised (ValueError "too many values to unpack (expected 2)").
Proof.
  intros H Hk. rewrite update_config_Obj. unfold at_loc. simpl.
  unfold mbind, py_bind. by rewrite (update_item_many_dots _ k v _ H Hk).
Qed.

(** Induction on the argument of [update_config], through the lists. *)
Lemma config_induction (P : config → Prop) :
  (∀ l, P (Obj l)) → (∀ cs, Forall P cs → P (Seq cs)) → ∀ c, P c.
Proof.
  intros HObj HSeq. fix IH 1. intros [l|cs]; [apply HObj|].
  apply HSeq. induction cs as [|c cs IHcs]; constructor; [apply IH | exact IHcs].
Qed.

(** With at most one dot in every key, [update_config] returns: unknown
    keys are warned about or skipped. *)
Lemma update_config_returns c (kwargs : list (string * V)) w :
  Forall (λ kv, (count_dots kv.1 ≤ 1)%nat) kwargs →
  (update_config c kwargs w).2 = Returned tt.
Proof.
  intros Hk. revert w. induction c as [l|cs IH] using config_induction; intros w.
  - rewrite update_config_Obj. unfold at_loc.
    pose proof (update_items_returns kwargs (heap w l) (trace w) Hk) as Hr.
    by destruct (update_items kwargs _) as [[config' tr'] r].
  - revert w. induction IH as [|c cs Hc _ IHcs]; intros w; [done|].
    rewrite update_config_Seq_cons. unfold mbind, py_bind.
    specialize (Hc w). destruct (update_config c kwargs w) as [w1 r1].
    simpl in Hc. subst r1. apply IHcs.
Qed.

End UpdateConfig.


(** ** Properties of update_config *)

(** C1. [update_config] does not return for every key that names no
    field: on a lora configuration, the override ["lora_config.target.r"],
    which names no attribute and has two dots, makes the tuple assignment
    of line 49 raise [ValueError]. Unknown keys with at most one dot are
    warned about or skipped ([update_config_returns]). *)
Theorem update_config_two_dots_raises :
  attrs (heap Inputs.world0 1) !! "lora_config.target.r" = None ∧
  (update_config (Obj 1) [("lora_config.target.r", 16%Z)] Inputs.world0).2
    = Raised (ValueError "too many values to unpack (expected 2)").
Proof.
  split; [done|].
  apply update_config_Obj_many_dots; [done | simpl; lia].
Qed.

(** C8. On a configuration object whose type name is [T] and which has no
    field [f], the override [T.f] prints the warning
    "Warning: T does not accept parameter: T.f" and changes no object; the
    override [other.f], for a type name [other] different from [T], prints
    nothing and changes no object. Both calls return. Names are
    identifiers, so they contain no dot. This holds for every
    configuration object, a training configuration in particular. *)
Theorem update_config_dotted_unknown_field {V} (w : world V) (l : loc)
    (f other : string) (v : V) :
  well_formed (heap w l) →
  char_in dot f = false →
  attrs (heap w l) !! f = None →
  char_in dot other = false →
  other ≠ type_name (heap w l) →
  ((update_config (Obj l) [(type_name (heap w l) +:+ "." +:+ f, v)] w).2 = Returned tt ∧
   (∀ l', heap (update_config (Obj l) [(type_name (heap w l) +:+ "." +:+ f, v)] w).1 l'
          = heap w l') ∧
   trace (update_config (Obj l) [(type_name (heap w l) +:+ "." +:+ f, v)] w).1 =
     (trace w ++ [Print ("Warning: " +:+ type_name (heap w l) +:+
                         " does not accept parameter: " +:+
                         (type_name (heap w l) +:+ "." +:+ f))])%list) ∧
  ((update_config (Obj l) [(other +:+ "." +:+ f, v)] w).2 = Returned tt ∧
   (∀ l', heap (update_config (Obj l) [(other +:+ "." +:+ f, v)] w).1 l' = heap w l') ∧
   trace (update_config (Obj l) [(other +:+ "." +:+ f, v)] w).1 = trace w).
Proof.
  intros Hwf Hf Hnone Ho Hne.
  pose proof Hwf as [Hname _].
  change ("." +:+ f) with (String dot f).
  assert (∀ l', <[l := heap w l]> (heap w) l' = heap w l') as Hsame.
  { intros l'. unfold insert, fn_insert. case_decide; by subst. }
  split.
  - rewrite update_config_Obj. unfold at_loc. simpl. unfold mbind, py_bind.
    rewrite update_item_dotted; [|by apply well_formed_no_dotted, char_in_dotted|done..].
    rewrite String.eqb_refl.
    rewrite (proj2 (hasattr_false _ _) Hnone). simpl. done.
  - rewrite update_config_Obj. unfold at_loc. simpl. unfold mbind, py_bind.
    rewrite update_item_dotted; [|by apply well_formed_no_dotted, char_in_dotted|done..].
    destruct (String.eqb (type_name (heap w l)) other) eqn:E.
    + apply String.eqb_eq in E. congruence.
    + simpl. done.
Qed.

Lemma update_config_dotted_unknown_field_witness :
  well_formed (heap Inputs.world0 0) ∧
  trace (update_config (Obj 0) [("train_config.nonexistent_field", 1%Z)] Inputs.world0).1
    = [Print "Warning: train_config does not accept parameter: train_config.nonexistent_field"] ∧
  trace (update_config (Obj 0) [("OtherConfig.nonexistent_field", 1%Z)] Inputs.world0).1 = [].
Proof.
  assert (well_formed (heap Inputs.world0 0)) as Hwf.
  { split; [reflexivity|]. apply map_Forall_singleton. reflexivity. }
  split; [exact Hwf|].
  pose proof (update_config_dotted_unknown_field Inputs.world0 0
                "nonexistent_field" "OtherConfig" 1%Z Hwf eq_refl eq_refl eq_refl)
    as H.
  destruct H as [(_ & _ & H1) (_ & _ & H2)]; [discriminate|].
  split; [exact H1 | exact H2].
Defined.

(** C9. Let [C] be a list of configuration objects and [k] a field of
    exactly one element of [C], the one at index [i]. After
    [update_config(C, k=v)] the call has returned, that element's field
    [k] is [v] and its other fields are as before, and every other element
    of [C] is unchanged. *)
Theorem update_config_single_field {V} (w : world V) (C : list loc) (i : nat)
    (l : loc) (k : string) (v : V) :
  C !! i = Some l →
  well_formed (heap w l) →
  is_Some (attrs (heap w l) !! k) →
  (∀ j l', j ≠ i → C !! j = Some l' → attrs (heap w l') !! k = None) →
  (update_config (Seq (Obj <$> C)) [(k, v)] w).2 = Returned tt ∧
  attrs (heap (update_config (Seq (Obj <$> C)) [(k, v)] w).1 l) !! k = Some v ∧
  heap (update_config (Seq (Obj <$> C)) [(k, v)] w).1 l = setattr (heap w l) k v ∧
  (∀ j l', j ≠ i → C !! j = Some l' →
     heap (update_config (Seq (Obj <$> C)) [(k, v)] w).1 l' = heap w l').
Proof.
  intros Hi Hwf Hk Hothers.
  pose proof (well_formed_field _ _ Hwf Hk) as Hdot.
  destruct (update_config_flat C k v w Hdot) as [Hr Hh].
  assert (heap (update_config (Seq (Obj <$> C)) [(k, v)] w).1 l
          = setattr (heap w l) k v) as Hl.
  { rewrite Hh. rewrite bool_decide_eq_true_2 by (by eapply list_elem_of_lookup_2).
    unfold set_if_present. by rewrite (proj2 (hasattr_true _ _) Hk). }
  split; [done|]. split; [|split; [done|]].
  - rewrite Hl. simpl. apply lookup_insert_eq.
  - intros j l' Hj Hl'. rewrite Hh.
    rewrite bool_decide_eq_true_2 by (by eapply list_elem_of_lookup_2).
    unfold set_if_present.
    by rewrite (proj2 (hasattr_false _ _) (Hothers j l' Hj Hl')).
Qed.

Lemma update_config_single_field_witness :
  attrs (heap (update_config (Seq (Obj <$> [1; 0; 2]))
                 [("batch_size_training", 4%Z)] Inputs.world0).1 0)
    !! "batch_size_training" = Some 4%Z ∧
  heap (update_config (Seq (Obj <$> [1; 0; 2]))
          [("batch_size_training", 4%Z)] Inputs.world0).1 1 = Inputs.lora.
Proof.
  assert (well_formed (heap Inputs.world0 0)) as Hwf.
  { split; [reflexivity|]. apply map_Forall_singleton. reflexivity. }
  assert (∀ j l', j ≠ 1 → [1; 0; 2] !! j = Some l' →
            attrs (heap Inputs.world0 l') !! "batch_size_training" = None) as Ho.
  { intros [|[|[|j]]] l' Hj Hl'; simplify_eq/=; try done; reflexivity. }
  destruct (update_config_single_field Inputs.world0 [1; 0; 2] 1 0
              "batch_size_training" 4%Z eq_refl Hwf (mk_is_Some _ _ eq_refl) Ho)
    as (_ & H1 & _ & H2).
  split; [exact H1|]. exact (H2 0 1 ltac:(lia) eq_refl).
Defined.

(** ** Properties of generate_peft_config *)

Lemma names_eq : names = ["lora"; "llama_adapter"; "prefix"].
Proof. reflexivity. Qed.

Lemma str_in_spec x ns : str_in x ns = true ↔ x ∈ ns.
Proof.
  induction ns as [|n ns IH]; simpl.
  - split; [discriminate | intros H; by apply not_elem_of_nil in H].
  - rewrite elem_of_cons. destruct (String.eqb n x) eqn:E.
    + apply String.eqb_eq in E. split; [by left | done].
    + apply String.eqb_neq in E. rewrite IH. split; [by right | intros [?|?]; congruence].
Qed.

(** C4. With [peft_method = "llama_adapter"]: under FSDP the call raises
    [RuntimeError] before anything is instantiated, and the message names
    both the method ("Llama_adapter") and the mode ("FSDP"); without FSDP,
    and with overrides whose keys have at most one dot, the configuration
    is instantiated and reconciled and the call ends as the call of
    [AdaptionPromptConfig] on its fields ends: it returns the adapter
    configuration whenever that class accepts its arguments. *)
Theorem generate_peft_config_llama_adapter {V Params Adapter : Type}
    (default_attrs : string → gmap string V)
    (asdict : config_obj V → Params)
    (peft_class : string → Params → outcome Adapter)
    (tc : train_config V) (kwargs : list (string * V)) (tr : list event) :
  peft_method tc = "llama_adapter" →
  (enable_fsdp tc = true →
     generate_peft_config default_attrs asdict peft_class tc kwargs tr
       = (tr, Raised (RuntimeError llama_adapter_msg)) ∧
     is_substring "Llama_adapter" llama_adapter_msg = true ∧
     is_substring "FSDP" llama_adapter_msg = true) ∧
  (enable_fsdp tc = false →
   Forall (λ kv, (count_dots kv.1 ≤ 1)%nat) kwargs →
   ∃ config',
     (update_local
        {| type_name := "llama_adapter_config"; is_train_config := false;
           attrs := default_attrs "llama_adapter_config" |}
        kwargs (tr ++ [Call "llama_adapter_config"])%list).2 = Returned config' ∧
     (generate_peft_config default_attrs asdict peft_class tc kwargs tr).2
       = peft_class "AdaptionPromptConfig" (asdict config') ∧
     ∀ a, peft_class "AdaptionPromptConfig" (asdict config') = Returned a →
          (generate_peft_config default_attrs asdict peft_class tc kwargs tr).2
            = Returned a).
Proof.
  intros Hm. split.
  - intros Hf. unfold generate_peft_config. rewrite Hm, Hf, names_eq. simpl.
    split; [done|]. split; reflexivity.
  - intros Hf Hkeys. unfold generate_peft_config. rewrite Hm, Hf, names_eq. simpl.
    unfold mbind, py_bind, tuple_index, tuple_get, instantiate. simpl.
    unfold update_local.
    pose proof (update_items_returns kwargs
                  {| type_name := "llama_adapter_config"; is_train_config := false;
                     attrs := default_attrs "llama_adapter_config" |}
                  (tr ++ [Call "llama_adapter_config"])%list Hkeys) as Hr.
    destruct (update_items kwargs _) as [[config' tr'] r]. simpl in Hr. subst r.
    exists config'. simpl. split; [done|]. split; [done|]. by intros a ->.
Qed.

Lemma generate_peft_config_llama_adapter_witness :
  generate_peft_config Inputs.defaults Inputs.fields_of Inputs.accept
    (Inputs.mk_tc "llama_adapter" "padding" true false) [("adapter_len", 5%Z)] []
    = ([], Raised (RuntimeError llama_adapter_msg)) ∧
  ∃ a, (generate_peft_config Inputs.defaults Inputs.fields_of Inputs.accept
          (Inputs.mk_tc "llama_adapter" "padding" false false)
          [("adapter_len", 5%Z)] []).2 = Returned a.
Proof.
  split.
  - destruct (generate_peft_config_llama_adapter Inputs.defaults Inputs.fields_of
                Inputs.accept (Inputs.mk_tc "llama_adapter" "padding" true false)
                [("adapter_len", 5%Z)] [] eq_refl) as [H _].
    exact (proj1 (H eq_refl)).
  - destruct (generate_peft_config_llama_adapter Inputs.defaults Inputs.fields_of
                Inputs.accept (Inputs.mk_tc "llama_adapter" "padding" false false)
                [("adapter_len", 5%Z)] [] eq_refl) as [_ H].
    destruct (H eq_refl) as (config' & _ & _ & Hret).
    + repeat constructor.
    + eexists. apply Hret. reflexivity.
Defined.

(** C5. With [peft_method = "prefix"] the call raises [RuntimeError] with
    the PrefixTuning message whatever the other fields and the overrides
    are, before anything is instantiated; that message is never the
    message of an unknown method name. *)
Theorem generate_peft_config_prefix {V Params Adapter : Type}
    (default_attrs : string → gmap string V)
    (asdict : config_obj V → Params)
    (peft_class : string → Params → outcome Adapter)
    (tc : train_config V) (kwargs : list (string * V)) (tr : list event) :
  peft_method tc = "prefix" →
  generate_peft_config default_attrs asdict peft_class tc kwargs tr
    = (tr, Raised (RuntimeError prefix_msg)) ∧
  ∀ m, prefix_msg ≠ "Peft config not found: " +:+ m.
Proof.
  intros Hm. split.
  - unfold generate_peft_config. by rewrite Hm, names_eq.
  - intros m H. unfold prefix_msg in H. simpl in H. discriminate H.
Qed.

Lemma generate_peft_config_prefix_witness :
  generate_peft_config Inputs.defaults Inputs.fields_of Inputs.accept
    (Inputs.mk_tc "prefix" "packing" true true) [("adapter_len", 5%Z)] []
    = ([], Raised (RuntimeError prefix_msg)).
Proof.
  exact (proj1 (generate_peft_config_prefix Inputs.defaults Inputs.fields_of
                  Inputs.accept (Inputs.mk_tc "prefix" "packing" true true)
                  [("adapter_len", 5%Z)] [] eq_refl)).
Defined.

(** C6. The tuple [names] is [("lora", "llama_adapter", "prefix")]. For
    any other [peft_method] the call raises [RuntimeError] "Peft config not
    found: ..." and nothing has been instantiated: the trace is unchanged.
    For each of the three names the membership test passes and
    [names.index] selects an entry of [configs] and of [peft_configs]. *)
Theorem generate_peft_config_registry {V Params Adapter : Type}
    (default_attrs : string → gmap string V)
    (asdict : config_obj V → Params)
    (peft_class : string → Params → outcome Adapter) :
  names = ["lora"; "llama_adapter"; "prefix"] ∧
  (∀ (tc : train_config V) kwargs tr,
     peft_method tc ≠ "lora" →
     peft_method tc ≠ "llama_adapter" →
     peft_method tc ≠ "prefix" →
     generate_peft_config default_attrs asdict peft_class tc kwargs tr
       = (tr, Raised (RuntimeError ("Peft config not found: " +:+ peft_method tc)))) ∧
  (∀ m, m ∈ ["lora"; "llama_adapter"; "prefix"] →
     str_in m names = true ∧
     ∃ i cls ctor, index names m = Some i ∧ configs !! i = Some cls ∧
                   peft_configs !! i = Some ctor).
Proof.
  split; [reflexivity|]. split.
  - intros tc kwargs tr H1 H2 H3. unfold generate_peft_config.
    destruct (str_in (peft_method tc) names) eqn:E; [|done].
    apply str_in_spec in E. rewrite names_eq in E.
    repeat (apply elem_of_cons in E as [E|E]; [congruence|]).
    by apply not_elem_of_nil in E.
  - intros m Hm.
    repeat (apply elem_of_cons in Hm as [->|Hm];
            [split; [reflexivity | by eexists _, _, _] |]).
    by apply not_elem_of_nil in Hm.
Qed.

Lemma generate_peft_config_registry_witness :
  generate_peft_config Inputs.defaults Inputs.fields_of Inputs.accept
    (Inputs.mk_tc "not_a_real_method" "padding" false false) [] []
    = ([], Raised (RuntimeError "Peft config not found: not_a_real_method")) ∧
  str_in "lora" names = true.
Proof.
  destruct (generate_peft_config_registry Inputs.defaults Inputs.fields_of
              Inputs.accept) as (_ & Hunknown & Hknown).
  split.
  - apply (Hunknown (Inputs.mk_tc "not_a_real_method" "padding" false false));
      discriminate.
  - apply (Hknown "lora"). left.
Defined.

(** ** Properties of get_dataloader_kwargs *)

(** C2. Strategy ["padding"], no FSDP, mode ["train"]: the call returns
    a dict with a [LengthBasedBatchSampler] built with [drop_last=True] and
    [shuffle=True] over the dataset, with the training batch size, under
    ["batch_sampler"], a [DataCollatorForSeq2Seq] of the tokenizer under
    ["collate_fn"], and no ["batch_size"] key. *)
Theorem get_dataloader_kwargs_padding_local_train
    {V Dataset Tokenizer : Type} (dist : dist_env) (tc : train_config V)
    (dataset : Dataset) (tokenizer : Tokenizer) (tr : list event) :
  batching_strategy tc = "padding" →
  enable_fsdp tc = false →
  ∃ kwargs : gmap string (kwarg Dataset Tokenizer),
    (get_dataloader_kwargs dist tc dataset tokenizer "train" tr).2 = Returned kwargs ∧
    kwargs !! "batch_sampler" =
      Some (KSampler (LengthBasedBatchSampler dataset (batch_size_training tc)
                        true true)) ∧
    kwargs !! "collate_fn" = Some (KCollate (DataCollatorForSeq2Seq tokenizer)) ∧
    kwargs !! "batch_size" = None ∧
    dom kwargs = {["batch_sampler"; "collate_fn"]}.
Proof.
  intros Hs Hf. unfold get_dataloader_kwargs. rewrite Hs, Hf. simpl.
  eexists. split; [reflexivity|].
  split; [by simplify_map_eq|]. split; [by simplify_map_eq|].
  split; [by simplify_map_eq|].
  rewrite !dom_insert_L, dom_empty_L. set_solver.
Qed.

Lemma get_dataloader_kwargs_padding_local_train_witness :
  ∃ kwargs : gmap string (kwarg nat unit),
    (get_dataloader_kwargs Inputs.dist0 (Inputs.mk_tc "lora" "padding" false false)
       7 tt "train" []).2 = Returned kwargs ∧
    kwargs !! "batch_sampler" = Some (KSampler (LengthBasedBatchSampler 7 8 true true)) ∧
    kwargs !! "batch_size" = None.
Proof.
  destruct (get_dataloader_kwargs_padding_local_train Inputs.dist0
              (Inputs.mk_tc "lora" "padding" false false) 7 tt [] eq_refl eq_refl)
    as (kwargs & Hr & Hs & _ & Hb & _).
  exists kwargs. split; [exact Hr|]. split; [exact Hs | exact Hb].
Defined.

(** C3. Strategy ["packing"], neither FSDP nor DDP, mode ["val"]: the
    call returns a dict without ["sampler"] and ["batch_sampler"], with
    ["batch_size"] the validation batch size, ["drop_last"] true and
    ["collate_fn"] the default collator; no collaborator is called. *)
Theorem get_dataloader_kwargs_packing_local_val
    {V Dataset Tokenizer : Type} (dist : dist_env) (tc : train_config V)
    (dataset : Dataset) (tokenizer : Tokenizer) (tr : list event) (n : Z) :
  batching_strategy tc = "packing" →
  enable_fsdp tc = false →
  enable_ddp tc = false →
  val_batch_size tc = n →
  ∃ kwargs : gmap string (kwarg Dataset Tokenizer),
    get_dataloader_kwargs dist tc dataset tokenizer "val" tr = (tr, Returned kwargs) ∧
    kwargs !! "sampler" = None ∧
    kwargs !! "batch_sampler" = None ∧
    kwargs !! "batch_size" = Some (KInt n) ∧
    kwargs !! "drop_last" = Some (KBool true) ∧
    kwargs !! "collate_fn" = Some (KCollate default_data_collator).
Proof.
  intros Hs Hf Hd Hn. unfold get_dataloader_kwargs. rewrite Hs, Hf, Hd, Hn. simpl.
  eexists. split; [reflexivity|].
  repeat split; by simplify_map_eq.
Qed.

Lemma get_dataloader_kwargs_packing_local_val_witness :
  ∃ kwargs : gmap string (kwarg nat unit),
    get_dataloader_kwargs Inputs.dist0 (Inputs.mk_tc "lora" "packing" false false)
      7 tt "val" [] = ([], Returned kwargs) ∧
    kwargs !! "sampler" = None ∧
    kwargs !! "batch_size" = Some (KInt 4).
Proof.
  destruct (get_dataloader_kwargs_packing_local_val Inputs.dist0
              (Inputs.mk_tc "lora" "packing" false false) 7 tt [] 4
              eq_refl eq_refl eq_refl eq_refl)
    as (kwargs & Hr & Hs & _ & Hb & _).
  exists kwargs. split; [exact Hr|]. split; [exact Hs | exact Hb].
Defined.

(** C7. A strategy that is neither ["padding"] nor ["packing"]: whatever
    the mode and the two distributed flags, the call raises [ValueError]
    "Unknown batching strategy: ..." and has called no collaborator: the
    trace is unchanged, and no dict is returned. *)
Theorem get_dataloader_kwargs_unknown_strategy
    {V Dataset Tokenizer : Type} (dist : dist_env) (tc : train_config V)
    (dataset : Dataset) (tokenizer : Tokenizer) (mode : string) (tr : list event) :
  batching_strategy tc ≠ "padding" →
  batching_strategy tc ≠ "packing" →
  get_dataloader_kwargs dist tc dataset tokenizer mode tr =
    (tr, Raised (ValueError ("Unknown batching strategy: " +:+ batching_strategy tc))).
Proof.
  intros H1 H2. unfold get_dataloader_kwargs.
  apply String.eqb_neq in H1, H2. by rewrite H1, H2.
Qed.

Lemma get_dataloader_kwargs_unknown_strategy_witness :
  get_dataloader_kwargs Inputs.dist0
    (Inputs.mk_tc "lora" "unknown_strategy" true false) 7 tt "train" []
    = ([], Raised (ValueError "Unknown batching strategy: unknown_strategy")).
Proof.
  apply (get_dataloader_kwargs_unknown_strategy Inputs.dist0
           (Inputs.mk_tc "lora" "unknown_strategy" true false) 7 tt "train" []);
    discriminate.
Defined.

(** C10. Under ["packing"], a configuration with FSDP set (DDP set or
    not) and a configuration with only DDP set, with the same batch sizes,
    get the same outcome: the same calls in the same order, and the same
    dict or the same exception, for every dataset, tokenizer and mode. *)
Theorem get_dataloader_kwargs_packing_fsdp_ddp
    {V Dataset Tokenizer : Type} (dist : dist_env) (tc1 tc2 : train_config V)
    (dataset : Dataset) (tokenizer : Tokenizer) (mode : string) (tr : list event) :
  batching_strategy tc1 = "packing" →
  batching_strategy tc2 = "packing" →
  enable_fsdp tc1 = true →
  enable_fsdp tc2 = false →
  enable_ddp tc2 = true →
  batch_size_training tc1 = batch_size_training tc2 →
  val_batch_size tc1 = val_batch_size tc2 →
  get_dataloader_kwargs dist tc1 dataset tokenizer mode tr =
  get_dataloader_kwargs dist tc2 dataset tokenizer mode tr ∧
  ∀ rank num_replicas,
    get_rank dist = Returned rank →
    get_world_size dist = Returned num_replicas →
    ∃ kwargs : gmap string (kwarg Dataset Tokenizer),
      (get_dataloader_kwargs dist tc2 dataset tokenizer mode tr).2 = Returned kwargs ∧
      kwargs !! "sampler" =
        Some (KSampler (DistributedSampler dataset rank num_replicas
                          (String.eqb mode "train") true)).
Proof.
  intros Hs1 Hs2 Hf1 Hf2 Hd2 Hb Hv. unfold get_dataloader_kwargs.
  rewrite Hs1, Hs2, Hf1, Hf2, Hd2, Hb, Hv. split; [done|].
  intros rank num_replicas Hr Hn. simpl.
  unfold mbind, py_bind, query, new. rewrite Hr, Hn. simpl.
  eexists. split; [reflexivity|]. by simplify_map_eq.
Qed.

Lemma get_dataloader_kwargs_packing_fsdp_ddp_witness :
  get_dataloader_kwargs Inputs.dist0 (Inputs.mk_tc "lora" "packing" true false)
    7 tt "train" [] =
  get_dataloader_kwargs Inputs.dist0 (Inputs.mk_tc "lora" "packing" false true)
    7 tt "train" [].
Proof.
  exact (proj1 (get_dataloader_kwargs_packing_fsdp_ddp Inputs.dist0
                  (Inputs.mk_tc "lora" "packing" true false)
                  (Inputs.mk_tc "lora" "packing" false true) 7 tt "train" []
                  eq_refl eq_refl eq_refl eq_refl eq_refl eq_refl eq_refl)).
Defined.

(** ** What every call of update_config preserves *)

Section Effect.
Context {V : Type}.
Implicit Types (o : config_obj V) (w : world V) (k : string) (v : V).


Lemma same_shape_trans o1 o2 o3 :
  same_shape o1 o2 → same_shape o2 o3 → same_shape o1 o3.
Proof. intros (?&?&?) (?&?&?). repeat split; congruence. Qed.

Lemma same_shape_setattr o k v :
  is_Some (attrs o !! k) → same_shape (setattr o k v) o.
Proof.
  intros Hk. repeat split; simpl. rewrite dom_insert_L.
  apply subseteq_union_1_L, singleton_subseteq_l. by apply elem_of_dom.
Qed.


(** One step of the loop: the object keeps its class and its attribute
    names, the trace grows by printed lines only, and the only exception
    is the one of line 49. *)
Lemma update_item_effect k v o tr :
  same_shape (update_item k v (o, tr)).1.1 o ∧
  (∃ out, (update_item k v (o, tr)).1.2 = (tr ++ out)%list ∧
          Forall (λ e, is_print e = true) out) ∧
  ((update_item k v (o, tr)).2 = Returned tt ∨
   ((update_item k v (o, tr)).2 =
      Raised (ValueError "too many values to unpack (expected 2)") ∧
    (update_item k v (o, tr)).1 = (o, tr))).
Proof.
  assert (∃ out, tr = (tr ++ out)%list ∧ Forall (λ e, is_print e = true) out) as Hnil.
  { exists []. by rewrite app_nil_r. }
  assert (∀ line, ∃ out, (tr ++ [Print line])%list = (tr ++ out)%list ∧
                         Forall (λ e, is_print e = true) out) as Hone.
  { intros line. exists [Print line]. split; [done|]. by repeat constructor. }
  unfold update_item. destruct (hasattr o k) eqn:Ek.
  { apply hasattr_true in Ek. simpl.
    split; [by apply same_shape_setattr|]. split; [done | by left]. }
  destruct (char_in dot k) eqn:Ed.
  - pose proof (split_length k) as Hl.
    assert (count_dots k ≠ 0) as Hne.
    { intros H0. apply char_in_count_dots in H0. congruence. }
    destruct (split dot k) as [|a [|b [|c r]]]; simpl in Hl; try lia.
    + destruct (String.eqb (type_name o) a).
      * destruct (hasattr o b) eqn:Eb.
        -- apply hasattr_true in Eb. simpl.
           split; [by apply same_shape_setattr|]. split; [done | by left].
        -- simpl. split; [done|]. split; [apply Hone | by left].
      * simpl. split; [done|]. split; [done | by left].
    + simpl. split; [done|]. split; [done | by right].
  - destruct (is_train_config o); simpl.
    + split; [done|]. split; [apply Hone | by left].
    + split; [done|]. split; [done | by left].
Qed.

Lemma update_items_effect (kwargs : list (string * V)) o tr :
  same_shape (update_items kwargs (o, tr)).1.1 o ∧
  (∃ out, (update_items kwargs (o, tr)).1.2 = (tr ++ out)%list ∧
          Forall (λ e, is_print e = true) out) ∧
  ((update_items kwargs (o, tr)).2 = Returned tt ∨
   (update_items kwargs (o, tr)).2 =
     Raised (ValueError "too many values to unpack (expected 2)")).
Proof.
  revert o tr. induction kwargs as [|[k v] rest IH]; intros o tr.
  - simpl. split; [done|]. split; [|by left]. exists []. by rewrite app_nil_r.
  - simpl. unfold mbind, py_bind.
    destruct (update_item_effect k v o tr) as (Hs & (out & Ht & Hp) & Hr).
    destruct (update_item k v (o, tr)) as [[o1 tr1] r1]. simpl in *.
    destruct Hr as [->|[-> _]].
    + destruct (IH o1 tr1) as (Hs2 & (out2 & Ht2 & Hp2) & Hr2).
      split; [by eapply same_shape_trans|]. split; [|done].
      exists (out ++ out2)%list. split; [|by apply Forall_app].
      by rewrite Ht2, Ht, app_assoc.
    + simpl. split; [done|]. split; [by exists out | by right].
Qed.

Lemma locs_Seq_cons c cs : locs (Seq (c :: cs)) = (locs c ++ locs (Seq cs))%list.
Proof. done. Qed.

(** The whole call, on any argument and any overrides, whether it returns
    or raises. *)
Lemma update_config_effect c (kwargs : list (string * V)) w :
  (∀ l, same_shape (heap (update_config c kwargs w).1 l) (heap w l)) ∧
  (∀ l, l ∉ locs c → heap (update_config c kwargs w).1 l = heap w l) ∧
  (∃ out, trace (update_config c kwargs w).1 = (trace w ++ out)%list ∧
          Forall (λ e, is_print e = true) out) ∧
  ((update_config c kwargs w).2 = Returned tt ∨
   (update_config c kwargs w).2 =
     Raised (ValueError "too many values to unpack (expected 2)")).
Proof.
  revert w. induction c as [l|cs IH] using config_induction; intros w.
  - rewrite update_config_Obj. unfold at_loc.
    destruct (update_items_effect kwargs (heap w l) (trace w)) as (Hs & Ht & Hr).
    destruct (update_items kwargs _) as [[o' tr'] r]. simpl in *.
    split; [|split; [|done]].
    + intros l'. unfold insert, fn_insert. case_decide; by subst.
    + intros l' Hl'. unfold insert, fn_insert. case_decide; [|done].
      subst. exfalso. apply Hl'. by left.
  - revert w. induction IH as [|c cs Hc _ IHcs]; intros w.
    + simpl. split; [done|]. split; [done|]. split; [|by left].
      exists []. by rewrite app_nil_r.
    + rewrite update_config_Seq_cons, locs_Seq_cons. unfold mbind, py_bind.
      destruct (Hc w) as (Hs & Hf & (out & Ht & Hp) & Hr).
      destruct (update_config c kwargs w) as [w1 r1]. simpl in *.
      destruct Hr as [->| ->].
      * destruct (IHcs w1) as (Hs2 & Hf2 & (out2 & Ht2 & Hp2) & Hr2).
        split; [|split; [|split; [|done]]].
        -- intros l. by eapply same_shape_trans.
        -- intros l Hl. rewrite Hf2, Hf; [done|..]; intros ?; apply Hl;
             apply elem_of_app; auto.
        -- exists (out ++ out2)%list. split; [|by apply Forall_app].
           by rewrite Ht2, Ht, app_assoc.
      * simpl. split; [done|]. split; [|split; [by exists out | by right]].
        intros l Hl. apply Hf. intros ?. apply Hl. apply elem_of_app. auto.
Qed.

End Effect.

(** ** Further properties of update_config *)

(** X1. Without overrides [update_config] does nothing, on any nesting of
    lists and tuples: it returns, prints nothing and leaves every object
    as it is. *)
Theorem update_config_no_overrides {V} (c : config) (w : world V) :
  (update_config c [] w).2 = Returned tt ∧
  (∀ l, heap (update_config c [] w).1 l = heap w l) ∧
  trace (update_config c [] w).1 = trace w.
Proof.
  revert w. induction c as [l|cs IH] using config_induction; intros w.
  - rewrite update_config_Obj. unfold at_loc. simpl.
    split; [done|]. split; [|done].
    intros l'. unfold insert, fn_insert. case_decide; by subst.
  - revert w. induction IH as [|c cs Hc _ IHcs]; intros w; [done|].
    rewrite update_config_Seq_cons. unfold mbind, py_bind.
    destruct (Hc w) as (Hr & Hh & Ht).
    destruct (update_config c [] w) as [w1 r1]. simpl in *. subst r1.
    destruct (IHcs w1) as (Hr2 & Hh2 & Ht2).
    split; [done|]. split; [|congruence].
    intros l. by rewrite Hh2.
Qed.




(** X4. [update_config] only prints: the trace after the call is the
    trace before it followed by printed lines, with no call to a
    collaborator, whether the call returns or raises. *)
Theorem update_config_only_prints {V} (c : config) (kwargs : list (string * V))
    (w : world V) :
  ∃ out, trace (update_config c kwargs w).1 = (trace w ++ out)%list ∧
         Forall (λ e, is_print e = true) out.
Proof.
  destruct (update_config_effect c kwargs w) as (_ & _ & Ht & _). exact Ht.
Qed.


(** X6. A scoped override [name.f] on an object that has the field [f]:
    if the object's type name is [name] the field is set, otherwise the
    object is left as it is; in both cases the call returns and prints
    nothing. *)
Theorem update_config_scoped_override {V} (w : world V) (l : loc)
    (name f : string) (v : V) :
  well_formed (heap w l) →
  char_in dot name = false →
  is_Some (attrs (heap w l) !! f) →
  (update_config (Obj l) [(name +:+ "." +:+ f, v)] w).2 = Returned tt ∧
  trace (update_config (Obj l) [(name +:+ "." +:+ f, v)] w).1 = trace w ∧
  (type_name (heap w l) = name →
     heap (update_config (Obj l) [(name +:+ "." +:+ f, v)] w).1 l
       = setattr (heap w l) f v) ∧
  (type_name (heap w l) ≠ name →
     heap (update_config (Obj l) [(name +:+ "." +:+ f, v)] w).1 l = heap w l).
Proof.
  intros Hwf Hn Hf. pose proof (well_formed_field _ _ Hwf Hf) as Hfd.
  change ("." +:+ f) with (String dot f).
  rewrite update_config_Obj. unfold at_loc. simpl. unfold mbind, py_bind.
  rewrite update_item_dotted; [|by apply well_formed_no_dotted, char_in_dotted|done..].
  rewrite (proj2 (hasattr_true _ _) Hf).
  destruct (String.eqb (type_name (heap w l)) name) eqn:E; simpl.
  - apply String.eqb_eq in E. split; [done|]. split; [done|]. split; [|done].
    intros _. apply fn_lookup_insert.
  - apply String.eqb_neq in E. split; [done|]. split; [done|]. split; [done|].
    intros _. apply fn_lookup_insert.
Qed.

Lemma update_config_scoped_override_witness :
  attrs (heap (update_config (Obj 1) [("lora_config.r", 16%Z)] Inputs.world0).1 1)
    !! "r" = Some 16%Z ∧
  heap (update_config (Obj 1) [("prefix_config.r", 16%Z)] Inputs.world0).1 1
    = Inputs.lora.
Proof.
  assert (well_formed (heap Inputs.world0 1)) as Hwf.
  { split; [reflexivity|]. apply map_Forall_singleton. reflexivity. }
  split.
  - destruct (update_config_scoped_override Inputs.world0 1 "lora_config" "r"
                16%Z Hwf eq_refl (mk_is_Some _ _ eq_refl)) as (_ & _ & H & _).
    exact (f_equal (λ o, attrs o !! "r") (H eq_refl)).
  - destruct (update_config_scoped_override Inputs.world0 1 "prefix_config" "r"
                16%Z Hwf eq_refl (mk_is_Some _ _ eq_refl)) as (_ & _ & _ & H).
    exact (H ltac:(discriminate)).
Defined.

(** X7. An override without a dot that names no attribute changes no
    object and the call returns; on an instance of [train_config] it
    prints "Warning: unknown parameter k", on any other object nothing. *)
Theorem update_config_unknown_plain {V} (w : world V) (l : loc) (k : string) (v : V) :
  attrs (heap w l) !! k = None →
  char_in dot k = false →
  (update_config (Obj l) [(k, v)] w).2 = Returned tt ∧
  (∀ l', heap (update_config (Obj l) [(k, v)] w).1 l' = heap w l') ∧
  trace (update_config (Obj l) [(k, v)] w).1 =
    if is_train_config (heap w l)
    then (trace w ++ [Print ("Warning: unknown parameter " +:+ k)])%list
    else trace w.
Proof.
  intros Hk Hd. rewrite update_config_Obj. unfold at_loc. simpl.
  unfold mbind, py_bind. rewrite (update_item_plain _ k v _ Hk Hd). simpl.
  split; [done|]. split; [|done].
  intros l'. unfold insert, fn_insert. case_decide; by subst.
Qed.

Lemma update_config_unknown_plain_witness :
  trace (update_config (Obj 0) [("lr", 1%Z)] Inputs.world0).1
    = [Print "Warning: unknown parameter lr"] ∧
  trace (update_config (Obj 1) [("lr", 1%Z)] Inputs.world0).1 = [].
Proof.
  split.
  - exact (proj2 (proj2 (update_config_unknown_plain Inputs.world0 0 "lr" 1%Z
                           eq_refl eq_refl))).
  - exact (proj2 (proj2 (update_config_unknown_plain Inputs.world0 1 "lr" 1%Z
                           eq_refl eq_refl))).
Defined.

(** X8. [update_config] is not atomic: when an override that is applied
    is followed by one that raises, the call raises and the first
    override stays applied. *)
Theorem update_config_not_atomic {V} (w : world V) (l : loc) (k1 k2 : string)
    (v1 v2 : V) (rest : list (string * V)) :
  is_Some (attrs (heap w l) !! k1) →
  attrs (heap w l) !! k2 = None →
  (2 ≤ count_dots k2)%nat →
  (update_config (Obj l) ((k1, v1) :: (k2, v2) :: rest) w).2 =
    Raised (ValueError "too many values to unpack (expected 2)") ∧
  heap (update_config (Obj l) ((k1, v1) :: (k2, v2) :: rest) w).1 l =
    setattr (heap w l) k1 v1.
Proof.
  intros H1 H2 Hd. rewrite update_config_Obj. unfold at_loc. simpl.
  unfold mbind, py_bind. rewrite (update_item_field _ k1 v1 _ H1).
  rewrite update_item_many_dots; [| |done].
  - simpl. split; [done|]. apply fn_lookup_insert.
  - simpl. rewrite lookup_insert_ne; [done|]. intros ->.
    rewrite H2 in H1. by destruct H1.
Qed.

Lemma update_config_not_atomic_witness :
  (update_config (Obj 1) [("r", 16%Z); ("lora_config.target.r", 32%Z)]
     Inputs.world0).2 = Raised (ValueError "too many values to unpack (expected 2)") ∧
  attrs (heap (update_config (Obj 1) [("r", 16%Z); ("lora_config.target.r", 32%Z)]
                 Inputs.world0).1 1) !! "r" = Some 16%Z.
Proof.
  destruct (update_config_not_atomic Inputs.world0 1 "r" "lora_config.target.r"
              16%Z 32%Z [] (mk_is_Some _ _ eq_refl) eq_refl) as [Hr Hh].
  - simpl. lia.
  - split; [exact Hr|]. rewrite Hh. reflexivity.
Defined.

(** X9. On one object, passing two sets of overrides in one call is the
    same as passing them in two calls, the second made after the first has
    returned: same outcome, same trace, same objects. *)
Theorem update_config_split_overrides {V} (w : world V) (l : loc)
    (kwargs1 kwargs2 : list (string * V)) :
  (update_config (Obj l) kwargs1 w).2 = Returned tt →
  (update_config (Obj l) (kwargs1 ++ kwargs2) w).2 =
    (update_config (Obj l) kwargs2 (update_config (Obj l) kwargs1 w).1).2 ∧
  trace (update_config (Obj l) (kwargs1 ++ kwargs2) w).1 =
    trace (update_config (Obj l) kwargs2 (update_config (Obj l) kwargs1 w).1).1 ∧
  ∀ l', heap (update_config (Obj l) (kwargs1 ++ kwargs2) w).1 l' =
        heap (update_config (Obj l) kwargs2 (update_config (Obj l) kwargs1 w).1).1 l'.
Proof.
  rewrite !update_config_Obj. unfold at_loc.
  assert (∀ s, update_items (kwargs1 ++ kwargs2) s =
               match update_items kwargs1 s with
               | (s', Returned _) => update_items kwargs2 s'
               | (s', Raised e) => (s', Raised e)
               end) as Happ.
  { induction kwargs1 as [|[k v] rest IH]; intros s.
    - done.
    - simpl. unfold mbind, py_bind.
      destruct (update_item k v s) as [s1 [[]|e]]; [apply IH | done]. }
  rewrite Happ.
  destruct (update_items kwargs1 (heap w l, trace w)) as [[o1 tr1] [[]|e]];
    simpl; [|discriminate].
  intros _. rewrite fn_lookup_insert.
  destruct (update_items kwargs2 (o1, tr1)) as [[o2 tr2] r2]. simpl.
  split; [done|]. split; [done|].
  intros l'. unfold insert, fn_insert. by case_decide.
Qed.

Lemma update_config_split_overrides_witness :
  (update_config (Obj 1) ([("r", 16%Z)] ++ [("lora_config.r", 32%Z)]) Inputs.world0).2 =
  (update_config (Obj 1) [("lora_config.r", 32%Z)]
     (update_config (Obj 1) [("r", 16%Z)] Inputs.world0).1).2.
Proof.
  exact (proj1 (update_config_split_overrides Inputs.world0 1 [("r", 16%Z)]
                  [("lora_config.r", 32%Z)] eq_refl)).
Defined.

(** ** Further properties of generate_peft_config *)

Section PeftRun.
Context {V Params Adapter : Type}.
Variable default_attrs : string → gmap string V.
Variable asdict : config_obj V → Params.
Variable peft_class : string → Params → outcome Adapter.
Implicit Types (tc : train_config V) (kwargs : list (string * V)).

(** Past the checks, the call is: instantiate, reconcile, construct. *)
Lemma generate_peft_config_run tc cls ctor kwargs tr :
  selects tc cls ctor →
  generate_peft_config default_attrs asdict peft_class tc kwargs tr =
    match update_items kwargs (fresh default_attrs cls, (tr ++ [Call cls])%list) with
    | ((config', tr'), Returned _) =>
        ((tr' ++ [Call ctor])%list, peft_class ctor (asdict config'))
    | ((_, tr'), Raised e) => (tr', Raised e)
    end.
Proof.
  intros [(Hm & -> & ->)|(Hm & Hf & -> & ->)];
    unfold generate_peft_config; rewrite Hm, names_eq; simpl.
  - rewrite andb_false_r.
    unfold mbind, py_bind, tuple_index, tuple_get, instantiate, update_local,
      construct, fresh. simpl.
    by destruct (update_items kwargs _) as [[config' tr'] [[]|e]].
  - rewrite Hf. simpl.
    unfold mbind, py_bind, tuple_index, tuple_get, instantiate, update_local,
      construct, fresh. simpl.
    by destruct (update_items kwargs _) as [[config' tr'] [[]|e]].
Qed.



(** Overrides without a dot that name no attribute leave an object that
    is not a training configuration as it is, and print nothing. *)
Lemma update_items_ignored kwargs (o : config_obj V) tr :
  is_train_config o = false →
  Forall (λ kv, char_in dot kv.1 = false ∧ attrs o !! kv.1 = None) kwargs →
  update_items kwargs (o, tr) = ((o, tr), Returned tt).
Proof.
  intros Ht H. induction H as [|[k v] rest [Hd Hk] _ IH]; [done|].
  simpl in *. unfold mbind, py_bind.
  by rewrite (update_item_plain _ k v _ Hk Hd), Ht.
Qed.

(** Overrides that all name attributes are assignments, in order. *)
Lemma update_items_fields kwargs (o : config_obj V) tr :
  Forall (λ kv, is_Some (attrs o !! kv.1)) kwargs →
  update_items kwargs (o, tr) =
    ((foldl (λ o kv, setattr o kv.1 kv.2) o kwargs, tr), Returned tt).
Proof.
  revert o. induction kwargs as [|[k v] rest IH]; intros o H; [done|].
  apply Forall_cons_1 in H as [Hk H]. simpl in *. unfold mbind, py_bind.
  rewrite (update_item_field _ k v _ Hk). apply IH.
  revert H. apply List.Forall_impl. intros [k' v'] Hk'. simpl in *.
  apply lookup_insert_is_Some'. by right.
Qed.



(** X12. With a supported method, overrides without a dot that name no
    field of the default instance are dropped without a warning: the
    adapter is built from the defaults, as with no overrides at all. *)
Theorem generate_peft_config_ignores_unknown tc cls ctor kwargs tr :
  selects tc cls ctor →
  Forall (λ kv, char_in dot kv.1 = false ∧ default_attrs cls !! kv.1 = None) kwargs →
  generate_peft_config default_attrs asdict peft_class tc kwargs tr =
    (((tr ++ [Call cls]) ++ [Call ctor])%list,
     peft_class ctor (asdict (fresh default_attrs cls))) ∧
  generate_peft_config default_attrs asdict peft_class tc kwargs tr =
    generate_peft_config default_attrs asdict peft_class tc [] tr.
Proof.
  intros Hsel Hk. rewrite !(generate_peft_config_run _ _ _ _ _ Hsel).
  by rewrite (update_items_ignored kwargs (fresh default_attrs cls) _ eq_refl Hk).
Qed.

(** X13. With a supported method, overrides that all name fields of the
    default instance are assigned in order, nothing is printed, and the
    adapter class gets the fields of the resulting configuration. *)
Theorem generate_peft_config_applies_fields tc cls ctor kwargs tr :
  selects tc cls ctor →
  Forall (λ kv, is_Some (default_attrs cls !! kv.1)) kwargs →
  generate_peft_config default_attrs asdict peft_class tc kwargs tr =
    (((tr ++ [Call cls]) ++ [Call ctor])%list,
     peft_class ctor
       (asdict (foldl (λ o kv, setattr o kv.1 kv.2) (fresh default_attrs cls) kwargs))).
Proof.
  intros Hsel Hk. rewrite (generate_peft_config_run _ _ _ _ _ Hsel).
  by rewrite (update_items_fields kwargs (fresh default_attrs cls) _ Hk).
Qed.

End PeftRun.



Lemma generate_peft_config_ignores_unknown_witness :
  generate_peft_config Inputs.defaults Inputs.fields_of Inputs.accept
    (Inputs.mk_tc "lora" "padding" false false) [("adapter_length", 5%Z)] [] =
  generate_peft_config Inputs.defaults Inputs.fields_of Inputs.accept
    (Inputs.mk_tc "lora" "padding" false false) [] [].
Proof.
  refine (proj2 (generate_peft_config_ignores_unknown Inputs.defaults
                   Inputs.fields_of Inputs.accept
                   (Inputs.mk_tc "lora" "padding" false false)
                   "lora_config" "LoraConfig" [("adapter_length", 5%Z)] [] _ _)).
  - by left.
  - repeat constructor.
Defined.

Lemma generate_peft_config_applies_fields_witness :
  generate_peft_config Inputs.defaults Inputs.fields_of Inputs.accept
    (Inputs.mk_tc "lora" "padding" false false)
    [("adapter_len", 5%Z); ("adapter_len", 7%Z)] [] =
  ([Call "lora_config"; Call "LoraConfig"],
   Returned ("LoraConfig", {["adapter_len" := 7%Z]})).
Proof.
  rewrite (generate_peft_config_applies_fields Inputs.defaults Inputs.fields_of
             Inputs.accept (Inputs.mk_tc "lora" "padding" false false)
             "lora_config" "LoraConfig").
  - reflexivity.
  - by left.
  - repeat constructor; by eexists.
Defined.

(** ** Further properties of get_dataloader_kwargs *)

Section LoaderMore.
Context {V Dataset Tokenizer : Type}.
Implicit Types (dist : dist_env) (tc : train_config V) (dataset : Dataset)
  (tokenizer : Tokenizer) (mode : string) (tr : list event).

(** X14. Every mode other than ["train"] is treated as ["val"]: the
    validation batch size and no shuffling, whatever the string is. *)
Theorem get_dataloader_kwargs_mode dist tc dataset tokenizer mode tr :
  mode ≠ "train" →
  get_dataloader_kwargs dist tc dataset tokenizer mode tr =
  get_dataloader_kwargs dist tc dataset tokenizer "val" tr.
Proof.
  intros Hm. apply String.eqb_neq in Hm. unfold get_dataloader_kwargs.
  by rewrite Hm.
Qed.

(** X15. Under ["padding"] the flag [enable_ddp] is not read: two
    configurations that agree on [enable_fsdp] and on the batch sizes get
    the same outcome. *)
Theorem get_dataloader_kwargs_padding_ignores_ddp dist tc1 tc2 dataset
    tokenizer mode tr :
  batching_strategy tc1 = "padding" →
  batching_strategy tc2 = "padding" →
  enable_fsdp tc1 = enable_fsdp tc2 →
  batch_size_training tc1 = batch_size_training tc2 →
  val_batch_size tc1 = val_batch_size tc2 →
  get_dataloader_kwargs dist tc1 dataset tokenizer mode tr =
  get_dataloader_kwargs dist tc2 dataset tokenizer mode tr.
Proof.
  intros H1 H2 Hf Hb Hv. unfold get_dataloader_kwargs.
  by rewrite H1, H2, Hf, Hb, Hv.
Qed.

(** X16. ["padding"] under FSDP, in a process group that answers: the
    rank, then the world size are queried, and the dict has exactly the
    keys ["batch_sampler"], a [DistributedLengthBasedBatchSampler] with
    that rank and world size, the batch size of the mode and shuffling for
    ["train"] only, and ["collate_fn"]. *)
Theorem get_dataloader_kwargs_padding_fsdp dist tc dataset tokenizer mode tr
    (rank num_replicas : Z) :
  batching_strategy tc = "padding" →
  enable_fsdp tc = true →
  get_rank dist = Returned rank →
  get_world_size dist = Returned num_replicas →
  ∃ kwargs : gmap string (kwarg Dataset Tokenizer),
    get_dataloader_kwargs dist tc dataset tokenizer mode tr =
      ((tr ++ [Call "dist.get_rank"; Call "dist.get_world_size";
               Call "DistributedLengthBasedBatchSampler";
               Call "DataCollatorForSeq2Seq"])%list, Returned kwargs) ∧
    kwargs !! "batch_sampler" =
      Some (KSampler (DistributedLengthBasedBatchSampler dataset
                        (if String.eqb mode "train" then batch_size_training tc
                         else val_batch_size tc)
                        rank num_replicas (String.eqb mode "train"))) ∧
    kwargs !! "collate_fn" = Some (KCollate (DataCollatorForSeq2Seq tokenizer)) ∧
    dom kwargs = {["batch_sampler"; "collate_fn"]}.
Proof.
  intros Hs Hf Hr Hn. unfold get_dataloader_kwargs. rewrite Hs, Hf. simpl.
  unfold mbind, py_bind, query, new. rewrite Hr, Hn. simpl.
  eexists. split; [by rewrite <- !app_assoc|].
  split; [by simplify_map_eq|]. split; [by simplify_map_eq|].
  rewrite !dom_insert_L, dom_empty_L. set_solver.
Qed.

(** X17. When a sampler for a process group is asked for and
    [dist.get_rank()] raises, the exception leaves the function and
    nothing else has been called; when [dist.get_world_size()] raises,
    only the two queries have been made. No sampler or collator is
    constructed. *)
Theorem get_dataloader_kwargs_dist_raises dist tc dataset tokenizer mode tr :
  (batching_strategy tc = "padding" ∧ enable_fsdp tc = true) ∨
  (batching_strategy tc = "packing" ∧
   (enable_fsdp tc = true ∨ enable_ddp tc = true)) →
  (∀ e, get_rank dist = Raised e →
     get_dataloader_kwargs dist tc dataset tokenizer mode tr =
       ((tr ++ [Call "dist.get_rank"])%list, Raised e)) ∧
  (∀ rank e, get_rank dist = Returned rank → get_world_size dist = Raised e →
     get_dataloader_kwargs dist tc dataset tokenizer mode tr =
       (((tr ++ [Call "dist.get_rank"]) ++ [Call "dist.get_world_size"])%list,
        Raised e)).
Proof.
  intros H. split.
  - intros e He. unfold get_dataloader_kwargs.
    destruct H as [[Hs Hf]|[Hs [Hf|Hd]]]; rewrite Hs; simpl.
    + rewrite Hf. unfold mbind, py_bind, query. by rewrite He.
    + rewrite Hf. unfold mbind, py_bind, query. by rewrite He.
    + rewrite Hd. destruct (enable_fsdp tc);
        unfold mbind, py_bind, query; by rewrite He.
  - intros rank e Hr He. unfold get_dataloader_kwargs.
    destruct H as [[Hs Hf]|[Hs [Hf|Hd]]]; rewrite Hs; simpl.
    + rewrite Hf. unfold mbind, py_bind, query. by rewrite Hr, He.
    + rewrite Hf. unfold mbind, py_bind, query. by rewrite Hr, He.
    + rewrite Hd. destruct (enable_fsdp tc);
        unfold mbind, py_bind, query; by rewrite Hr, He.
Qed.

(** X18. Without the flag that asks for a distributed sampler the
    function does not touch [torch.distributed]: under ["padding"] without
    FSDP, and under ["packing"] without FSDP and DDP, the outcome is the
    same in every process, with or without a process group. *)
Theorem get_dataloader_kwargs_local dist1 dist2 tc dataset tokenizer mode tr :
  (batching_strategy tc = "padding" ∧ enable_fsdp tc = false) ∨
  (batching_strategy tc = "packing" ∧ enable_fsdp tc = false ∧
   enable_ddp tc = false) →
  get_dataloader_kwargs dist1 tc dataset tokenizer mode tr =
  get_dataloader_kwargs dist2 tc dataset tokenizer mode tr.
Proof.
  intros [[Hs Hf]|(Hs & Hf & Hd)]; unfold get_dataloader_kwargs; rewrite Hs, Hf.
  - done.
  - by rewrite Hd.
Qed.

(** X19. Every dict the function returns can be passed to a data loader:
    it has ["collate_fn"], and either ["batch_sampler"] alone or
    ["batch_size"] with ["drop_last"] true, never both; ["sampler"] never
    comes with ["batch_sampler"]. *)
Theorem get_dataloader_kwargs_dict dist tc dataset tokenizer mode tr
    (kwargs : gmap string (kwarg Dataset Tokenizer)) :
  (get_dataloader_kwargs dist tc dataset tokenizer mode tr).2 = Returned kwargs →
  is_Some (kwargs !! "collate_fn") ∧
  ((is_Some (kwargs !! "batch_sampler") ∧ kwargs !! "batch_size" = None ∧
    kwargs !! "drop_last" = None ∧ kwargs !! "sampler" = None) ∨
   (kwargs !! "batch_sampler" = None ∧ is_Some (kwargs !! "batch_size") ∧
    kwargs !! "drop_last" = Some (KBool true))).
Proof.
  unfold get_dataloader_kwargs.
  destruct (String.eqb (batching_strategy tc) "padding").
  - destruct (enable_fsdp tc); unfold mbind, py_bind, query, new; simpl.
    + destruct (get_rank dist); [|discriminate].
      destruct (get_world_size dist); [|discriminate]. simpl.
      intros [= <-]. split; [by simplify_map_eq|]. left.
      repeat split; by simplify_map_eq.
    + intros [= <-]. split; [by simplify_map_eq|]. left.
      repeat split; by simplify_map_eq.
  - destruct (String.eqb (batching_strategy tc) "packing"); [|discriminate].
    destruct (enable_fsdp tc); [|destruct (enable_ddp tc)];
      unfold mbind, py_bind, query, new; simpl.
    1,2: destruct (get_rank dist); [|discriminate];
         destruct (get_world_size dist); [|discriminate]; simpl.
    all: intros [= <-]; (split; [by simplify_map_eq|]); right;
         repeat split; by simplify_map_eq.
Qed.

End LoaderMore.

Lemma get_dataloader_kwargs_mode_witness :
  get_dataloader_kwargs Inputs.dist0 (Inputs.mk_tc "lora" "packing" false true)
    7 tt "Train" [] =
  get_dataloader_kwargs Inputs.dist0 (Inputs.mk_tc "lora" "packing" false true)
    7 tt "val" [].
Proof.
  apply (get_dataloader_kwargs_mode (Dataset := nat) (Tokenizer := unit)).
  discriminate.
Defined.

Lemma get_dataloader_kwargs_padding_ignores_ddp_witness :
  get_dataloader_kwargs Inputs.dist0 (Inputs.mk_tc "lora" "padding" false true)
    7 tt "train" [] =
  get_dataloader_kwargs Inputs.dist0 (Inputs.mk_tc "lora" "padding" false false)
    7 tt "train" [].
Proof.
  exact (get_dataloader_kwargs_padding_ignores_ddp Inputs.dist0
           (Inputs.mk_tc "lora" "padding" false true)
           (Inputs.mk_tc "lora" "padding" false false) 7 tt "train" []
           eq_refl eq_refl eq_refl eq_refl eq_refl).
Defined.

Lemma get_dataloader_kwargs_padding_fsdp_witness :
  ∃ kwargs : gmap string (kwarg nat unit),
    (get_dataloader_kwargs Inputs.dist0 (Inputs.mk_tc "lora" "padding" true false)
       7 tt "val" []).2 = Returned kwargs ∧
    kwargs !! "batch_sampler" =
      Some (KSampler (DistributedLengthBasedBatchSampler 7 4 1 2 false)).
Proof.
  destruct (get_dataloader_kwargs_padding_fsdp Inputs.dist0
              (Inputs.mk_tc "lora" "padding" true false) 7 tt "val" [] 1 2
              eq_refl eq_refl eq_refl eq_refl) as (kwargs & Hr & Hs & _).
  exists kwargs. split; [by rewrite Hr | exact Hs].
Defined.

Lemma get_dataloader_kwargs_dist_raises_witness :
  get_dataloader_kwargs MoreInputs.no_dist (Inputs.mk_tc "lora" "packing" false true)
    7 tt "train" [] =
  ([Call "dist.get_rank"],
   Raised (ValueError "Default process group has not been initialized")).
Proof.
  refine (proj1 (get_dataloader_kwargs_dist_raises MoreInputs.no_dist
                   (Inputs.mk_tc "lora" "packing" false true) 7 tt "train" [] _)
            _ eq_refl).
  right. split; [reflexivity | by right].
Defined.

Lemma get_dataloader_kwargs_local_witness :
  get_dataloader_kwargs Inputs.dist0 (Inputs.mk_tc "lora" "padding" false true)
    7 tt "train" [] =
  get_dataloader_kwargs MoreInputs.no_dist (Inputs.mk_tc "lora" "padding" false true)
    7 tt "train" [].
Proof.
  apply (get_dataloader_kwargs_local (Dataset := nat) (Tokenizer := unit)).
  by left.
Defined.

Lemma get_dataloader_kwargs_dict_witness :
  ∃ kwargs : gmap string (kwarg nat unit),
    (get_dataloader_kwargs Inputs.dist0 (Inputs.mk_tc "lora" "packing" true false)
       7 tt "train" []).2 = Returned kwargs ∧
    is_Some (kwargs !! "collate_fn").
Proof.
  eexists. split; [reflexivity|].
  exact (proj1 (get_dataloader_kwargs_dict Inputs.dist0
                  (Inputs.mk_tc "lora" "packing" true false) 7 tt "train" [] _
                  eq_refl)).
Defined.

(** ** Properties of generate_dataset_config *)

Section DatasetProps.
Context {V E : Type}.
Variable DATASET_PREPROC : list string.
Variable members : gmap string (E + config_obj V).
Implicit Types (dataset : string) (kwargs : list (string * V)) (tr : list event).

(** X20. A dataset name that is not a key of [DATASET_PREPROC] fails the
    assertion before anything is looked up or called; a name that is a key
    but names no member of the module [datasets] raises [KeyError], and no
    class is called. The overrides play no part. *)
Theorem generate_dataset_config_unresolved dataset kwargs tr :
  (dataset ∉ DATASET_PREPROC →
     generate_dataset_config DATASET_PREPROC members dataset kwargs tr =
       (tr, inl (AssertionError ("Unknown dataset: " +:+ dataset)))) ∧
  (dataset ∈ DATASET_PREPROC → members !! dataset = None →
     generate_dataset_config DATASET_PREPROC members dataset kwargs tr =
       ((tr ++ [Call "inspect.getmembers"])%list, inl (KeyError dataset))).
Proof.
  unfold generate_dataset_config. split.
  - intros H. destruct (str_in dataset DATASET_PREPROC) eqn:E1; [|done].
    apply str_in_spec in E1. done.
  - intros H Hm. apply str_in_spec in H. by rewrite H, Hm.
Qed.



End DatasetProps.

Lemma generate_dataset_config_unresolved_witness :
  generate_dataset_config MoreInputs.preproc MoreInputs.module_members
    "unknown_dataset" [("train_split", 2%Z)] [] =
    ([], inl (AssertionError "Unknown dataset: unknown_dataset")) ∧
  generate_dataset_config MoreInputs.preproc MoreInputs.module_members
    "custom_dataset" [("train_split", 2%Z)] [] =
    ([Call "inspect.getmembers"], inl (KeyError "custom_dataset")).
Proof.
  split.
  - apply (proj1 (generate_dataset_config_unresolved MoreInputs.preproc
                    MoreInputs.module_members "unknown_dataset" _ [])).
    intros H. repeat (apply elem_of_cons in H as [H|H]; [discriminate|]).
    by apply not_elem_of_nil in H.
  - apply (proj2 (generate_dataset_config_unresolved MoreInputs.preproc
                    MoreInputs.module_members "custom_dataset" _ [])).
    + apply list_elem_of_further, list_elem_of_here.
    + reflexivity.
Defined.



(** ** Properties of get_distillation_configs *)

Section DistillationProps.
Context {V : Type}.
Variable default_teacher_model_name default_alpha default_temperature : V.
Variable MODEL_CONFIG_dict : gmap string V.
Implicit Types (teacher alpha temperature : option V)
  (kwargs : list (string * V)) (TRAIN_CONFIG : gmap string V).

(** X23. After the call the class [train_config] has the three
    attributes with the values passed, or the defaults for those left out,
    and its other attributes are as before; the tuple returned holds
    [MODEL_CONFIG.__dict__], the class and three [None]; the keyword
    arguments beyond the three are not used. *)
Theorem get_distillation_configs_effect teacher alpha temperature
    kwargs kwargs' TRAIN_CONFIG :
  (get_distillation_configs default_teacher_model_name default_alpha
     default_temperature MODEL_CONFIG_dict
     teacher alpha temperature kwargs TRAIN_CONFIG).1 !! "teacher_model_name"
    = Some (default default_teacher_model_name teacher) ∧
  (get_distillation_configs default_teacher_model_name default_alpha
     default_temperature MODEL_CONFIG_dict
     teacher alpha temperature kwargs TRAIN_CONFIG).1 !! "alpha"
    = Some (default default_alpha alpha) ∧
  (get_distillation_configs default_teacher_model_name default_alpha
     default_temperature MODEL_CONFIG_dict
     teacher alpha temperature kwargs TRAIN_CONFIG).1 !! "temperature"
    = Some (default default_temperature temperature) ∧
  (∀ k, k ≠ "teacher_model_name" → k ≠ "alpha" → k ≠ "temperature" →
        (get_distillation_configs default_teacher_model_name default_alpha
           default_temperature MODEL_CONFIG_dict
           teacher alpha temperature kwargs TRAIN_CONFIG).1 !! k
          = TRAIN_CONFIG !! k) ∧
  (get_distillation_configs default_teacher_model_name default_alpha
     default_temperature MODEL_CONFIG_dict
     teacher alpha temperature kwargs TRAIN_CONFIG).2 =
    [ModelConfigs MODEL_CONFIG_dict; TrainConfigClass; PyNone; PyNone; PyNone] ∧
  get_distillation_configs default_teacher_model_name default_alpha
    default_temperature MODEL_CONFIG_dict
    teacher alpha temperature kwargs TRAIN_CONFIG =
  get_distillation_configs default_teacher_model_name default_alpha
    default_temperature MODEL_CONFIG_dict
    teacher alpha temperature kwargs' TRAIN_CONFIG.
Proof.
  unfold get_distillation_configs. simpl.
  repeat split; try by simplify_map_eq.
  intros k H1 H2 H3. by rewrite !lookup_insert_ne.
Qed.

(** X24. The class holds the values of the last call only: a call made
    after another leaves the class, and returns, as if the earlier one had
    not been made; calling twice with the same arguments is calling
    once. *)
Theorem get_distillation_configs_last_call teacher1 alpha1 temperature1
    teacher2 alpha2 temperature2 kwargs1 kwargs2 TRAIN_CONFIG :
  get_distillation_configs default_teacher_model_name default_alpha
    default_temperature MODEL_CONFIG_dict
    teacher2 alpha2 temperature2 kwargs2
    (get_distillation_configs default_teacher_model_name default_alpha
       default_temperature MODEL_CONFIG_dict
       teacher1 alpha1 temperature1 kwargs1 TRAIN_CONFIG).1 =
  get_distillation_configs default_teacher_model_name default_alpha
    default_temperature MODEL_CONFIG_dict
    teacher2 alpha2 temperature2 kwargs2 TRAIN_CONFIG.
Proof.
  unfold get_distillation_configs. simpl. f_equal.
  apply map_eq. intros k.
  destruct (decide (k = "temperature")) as [->|H1]; [by simplify_map_eq|].
  destruct (decide (k = "alpha")) as [->|H2]; [by simplify_map_eq|].
  destruct (decide (k = "teacher_model_name")) as [->|H3]; [by simplify_map_eq|].
  by rewrite !lookup_insert_ne.
Qed.

End DistillationProps.

(** ** Applying the same overrides again *)

Section Again.
Context {V : Type}.
Implicit Types (o : config_obj V) (w : world V) (k : string) (v : V)
  (W : list (string * V)).








End Again.

